(** * financial-ratios: the nine ratio formulas of [index.js]

    The library is a flat set of functions over JavaScript numbers.  A
    JavaScript number is an IEEE-754 binary64 value; it is modelled by
    [spec_float] of the Standard Library ([prec = 53], [emax = 1024]), whose
    operations round to nearest, ties to even, and which has a single
    not-a-number value, as JavaScript observes it. *)

From Stdlib Require Import ZArith Bool Lia QArith Qabs.
From Stdlib Require Import Floats.SpecFloat.

Local Open Scope Z_scope.

(** ** JavaScript numbers *)

Module JS.

Definition number : Type := spec_float.

Definition prec : Z := 53.
Definition emax : Z := 1024.

(** The global [NaN]. *)
Definition NaN : number := S754_nan.

(** The arithmetic operators [+], [-], [*], [/] and [Math.sqrt]. *)
Definition add : number -> number -> number := SFadd prec emax.
Definition sub : number -> number -> number := SFsub prec emax.
Definition mul : number -> number -> number := SFmul prec emax.
Definition div : number -> number -> number := SFdiv prec emax.
Definition sqrt : number -> number := SFsqrt prec emax.

(** [x === y], [x <= y] and [x > y] on numbers. *)
Definition strict_eq : number -> number -> bool := SFeqb.
Definition le : number -> number -> bool := SFleb.
Definition gt (x y : number) : bool := SFltb y x.

(** [Number.isNaN] and [Number.isFinite]. *)
Definition isNaN (x : number) : bool :=
  match x with S754_nan => true | _ => false end.

Definition isFinite (x : number) : bool :=
  match x with S754_zero _ | S754_finite _ _ _ => true | _ => false end.

(** A value that is a binary64 number: the mantissa is canonical and the
    exponent in range. *)
Definition valid (x : number) : bool := valid_binary prec emax x.

(** An integer literal. *)
Definition int (n : Z) : number := binary_normalize prec emax n 0 false.

(** A decimal literal [m / 10^k], for [m] below [2^53] and [k] at most 22.
    Both [m] and [10^k] are then binary64 numbers, and their correctly
    rounded quotient is the binary64 number nearest to the decimal, which is
    the value JavaScript gives the literal. *)
Definition dec (m : Z) (k : Z) : number := div (int m) (int (10 ^ k)).

(** The rational a finite number stands for. *)
Definition to_Q (x : number) : option Q :=
  match x with
  | S754_zero _ => Some 0%Q
  | S754_finite s m e =>
      let n := if s then Zneg m else Zpos m in
      Some (match e with
            | Zneg p => Qmake n (2 ^ p)
            | _ => inject_Z (n * 2 ^ e)
            end)
  | _ => None
  end.

(** [x] is a finite number at distance at most [tol] from [v]. *)
Definition within (tol : Q) (x : number) (v : Q) : bool :=
  match to_Q x with
  | Some q => Qle_bool (Qabs (q - v)) tol
  | None => false
  end.

(** A number that is neither a zero nor [NaN]. *)
Definition nonzero (x : number) : bool :=
  match x with S754_finite _ _ _ | S754_infinity _ => true | _ => false end.

End JS.

Import JS.

(** ** The functions of [index.js] *)

Definition calculateSharpeRatio
    (riskFreeRate averageReturn standardDeviation : number) : number :=
  if strict_eq standardDeviation (int 0) then NaN
  else div (sub averageReturn riskFreeRate) standardDeviation.

Definition calculateTreynorRatio
    (averageReturn marketReturn beta : number) : number :=
  if strict_eq beta (int 0) then NaN
  else div (sub averageReturn marketReturn) beta.

Definition calculateSortinoRatio
    (riskFreeRate averageReturn downsideDeviation : number) : number :=
  if strict_eq downsideDeviation (int 0) then NaN
  else div (sub averageReturn riskFreeRate) downsideDeviation.

Definition calculateEnterpriseValueToEBITDA
    (enterpriseValue ebitda : number) : number :=
  if strict_eq ebitda (int 0) then NaN
  else div enterpriseValue ebitda.

Definition calculatePriceToBook
    (stockPrice bookValuePerShare : number) : number :=
  if strict_eq bookValuePerShare (int 0) then NaN
  else div stockPrice bookValuePerShare.

Definition calculateGrahamNumber
    (earningsPerShare epsGrowthRate bondYield : number) : number :=
  if strict_eq earningsPerShare (int 0) || strict_eq bondYield (int 0)
  then NaN
  else
    let squareRoot := sqrt (dec 225 1) in
    div (mul (mul earningsPerShare (add (int 1) epsGrowthRate)) squareRoot)
        bondYield.

Definition calculateExpectedReturnCAPM
    (riskFreeRate marketReturn beta : number) : number :=
  add riskFreeRate (mul beta (sub marketReturn riskFreeRate)).

Definition calculateAltmanZScore
    (workingCapital retainedEarnings totalAssets marketValueEquity
     totalLiabilities : number) : number :=
  let numerator :=
    add (add (add (div (mul (dec 12 1) workingCapital) totalAssets)
                  (div (mul (dec 14 1) retainedEarnings) totalAssets))
             (div (mul (dec 33 1) marketValueEquity) totalLiabilities))
        (div (mul (dec 6 1) (sub totalAssets totalLiabilities))
             totalLiabilities) in
  let denominator := div marketValueEquity totalLiabilities in
  div numerator denominator.

Definition calculateGordonIntrinsicValueDDM
    (currentDividend growthRate discountRate : number) : number :=
  if le discountRate growthRate then NaN
  else div currentDividend (sub discountRate growthRate).

(** The Altman formula as the specification writes it: each ratio is taken
    first and weighted afterwards. *)
Definition altman_as_specified
    (workingCapital retainedEarnings totalAssets marketValueEquity
     totalLiabilities : number) : number :=
  let numerator :=
    add (add (add (mul (dec 12 1) (div workingCapital totalAssets))
                  (mul (dec 14 1) (div retainedEarnings totalAssets)))
             (mul (dec 33 1) (div marketValueEquity totalLiabilities)))
        (mul (dec 6 1) (div (sub totalAssets totalLiabilities)
                            totalLiabilities)) in
  let denominator := div marketValueEquity totalLiabilities in
  div numerator denominator.

(** ** Further operators and predicates on numbers *)

(** The unary [-]. *)
Definition neg : number -> number := SFopp.

(** [x === 0]: a zero of either sign. *)
Definition isZero (x : number) : bool :=
  match x with S754_zero _ => true | _ => false end.

(** [Infinity] or [-Infinity]. *)
Definition isInfinite (x : number) : bool :=
  match x with S754_infinity _ => true | _ => false end.

(** [x] is a number whose sign bit is [s]. *)
Definition has_sign (s : bool) (x : number) : bool :=
  match x with
  | S754_zero s' | S754_infinity s' | S754_finite s' _ _ => Bool.eqb s s'
  | S754_nan => false
  end.

(** [Number.MAX_VALUE]. *)
Definition MAX_VALUE : number := SFmax_float prec emax.

(** ** The inputs of the README example *)

Module Example.
Definition riskFreeRate : number := dec 2 2.
Definition averageReturn : number := dec 1 1.
Definition standardDeviation : number := dec 15 2.
Definition marketReturn : number := dec 8 2.
Definition beta : number := dec 12 1.
Definition downsideDeviation : number := dec 12 2.
Definition enterpriseValue : number := int 5000000.
Definition ebitda : number := int 1000000.
Definition stockPrice : number := int 50.
Definition bookValuePerShare : number := int 25.
Definition earningsPerShare : number := int 5.
Definition epsGrowthRate : number := dec 5 2.
Definition bondYield : number := dec 3 2.
Definition workingCapital : number := int 2000000.
Definition retainedEarnings : number := int 1500000.
Definition totalAssets : number := int 10000000.
Definition marketValueEquity : number := int 4000000.
Definition totalLiabilities : number := int 6000000.
Definition currentDividend : number := int 2.
Definition growthRate : number := dec 6 2.
Definition discountRate : number := dec 1 1.
End Example.

(** ** The literals of [index.js]

    The binary64 numbers the literals [0], [1], [1.2], [1.4], [3.3], [0.6]
    and [22.5] denote, and [Math.sqrt(22.5)]. *)

Lemma literal_values :
  int 0 = S754_zero false /\
  int 1 = S754_finite false 4503599627370496 (-52) /\
  dec 12 1 = S754_finite false 5404319552844595 (-52) /\
  dec 14 1 = S754_finite false 6305039478318694 (-52) /\
  dec 33 1 = S754_finite false 7430939385161318 (-51) /\
  dec 6 1 = S754_finite false 5404319552844595 (-53) /\
  dec 225 1 = S754_finite false 6333186975989760 (-48) /\
  sqrt (dec 225 1) = S754_finite false 5340612184491134 (-50).
Proof. repeat split; vm_compute; reflexivity. Qed.

(** ** Basic facts about the operators *)

Section Operators.

Lemma isNaN_eq (x : number) : isNaN x = true -> x = NaN.
Proof. destruct x; simpl; intros H; try discriminate H; reflexivity. Qed.

Lemma strict_eq_zero (s : bool) : strict_eq (S754_zero s) (int 0) = true.
Proof. reflexivity. Qed.

Lemma strict_eq_NaN_l (x : number) : strict_eq NaN x = false.
Proof. reflexivity. Qed.

Lemma strict_eq_NaN_r (x : number) : strict_eq x NaN = false.
Proof. destruct x; reflexivity. Qed.

Lemma le_NaN_l (x : number) : le NaN x = false.
Proof. reflexivity. Qed.

Lemma le_NaN_r (x : number) : le x NaN = false.
Proof. destruct x; reflexivity. Qed.

Lemma add_NaN_l (y : number) : add NaN y = NaN.
Proof. reflexivity. Qed.

Lemma add_NaN_r (x : number) : add x NaN = NaN.
Proof. destruct x; reflexivity. Qed.

Lemma sub_NaN_l (y : number) : sub NaN y = NaN.
Proof. reflexivity. Qed.

Lemma sub_NaN_r (x : number) : sub x NaN = NaN.
Proof. destruct x; reflexivity. Qed.

Lemma mul_NaN_l (y : number) : mul NaN y = NaN.
Proof. reflexivity. Qed.

Lemma mul_NaN_r (x : number) : mul x NaN = NaN.
Proof. destruct x; reflexivity. Qed.

Lemma div_NaN_l (y : number) : div NaN y = NaN.
Proof. reflexivity. Qed.

Lemma div_NaN_r (x : number) : div x NaN = NaN.
Proof. destruct x; reflexivity. Qed.

End Operators.

Create Rewrite HintDb js_nan.

#[export] Hint Rewrite
  strict_eq_zero strict_eq_NaN_l strict_eq_NaN_r le_NaN_l le_NaN_r
  add_NaN_l add_NaN_r sub_NaN_l sub_NaN_r
  mul_NaN_l mul_NaN_r div_NaN_l div_NaN_r
  orb_true_r orb_false_r : js_nan.

(** A guarded body [if c then NaN else e] is [NaN] as soon as [e] is. *)
Lemma guard_NaN (c : bool) (e : number) :
  e = NaN -> (if c then NaN else e) = NaN.
Proof. intros ->. destruct c; reflexivity. Qed.

(** ** Results that are not finite *)

Section NonFinite.

Lemma div_zero_not_finite (x : number) (s : bool) :
  isFinite (div x (S754_zero s)) = false.
Proof. destruct x; reflexivity. Qed.

Lemma add_not_finite_l (x y : number) :
  isFinite x = false -> isFinite (add x y) = false.
Proof.
  destruct x as [sx | sx | | sx mx ex]; intros Hx; try discriminate Hx.
  - destruct y as [sy | sy | | sy my ey]; try reflexivity.
    destruct sx, sy; reflexivity.
  - reflexivity.
Qed.

Lemma add_not_finite_r (x y : number) :
  isFinite y = false -> isFinite (add x y) = false.
Proof.
  destruct y as [sy | sy | | sy my ey]; intros Hy; try discriminate Hy.
  - destruct x as [sx | sx | | sx mx ex]; try reflexivity.
    destruct sx, sy; reflexivity.
  - now rewrite add_NaN_r.
Qed.

Lemma div_not_finite_l (x y : number) :
  isFinite x = false -> isFinite (div x y) = false.
Proof.
  destruct x as [sx | sx | | sx mx ex]; intros Hx; try discriminate Hx.
  - destruct y; reflexivity.
  - reflexivity.
Qed.

Lemma div_not_finite_both (x y : number) :
  isFinite x = false -> isFinite y = false -> div x y = NaN.
Proof.
  destruct x as [sx | sx | | sx mx ex]; intros Hx; try discriminate Hx;
    destruct y as [sy | sy | | sy my ey]; intros Hy; try discriminate Hy;
    reflexivity.
Qed.

End NonFinite.

(** ** Rounding

    What [binary_round_aux] can and cannot return; [prec] and [emax] are
    those of binary64 throughout. *)

Section Rounding.

Lemma fexp_eq (e : Z) : fexp prec emax e = Z.max (e - 53) (-1074).
Proof. reflexivity. Qed.

Lemma digits2_pos_lower (m : positive) :
  2 ^ (Zpos (digits2_pos m) - 1) <= Zpos m.
Proof.
  induction m as [m IH | m IH | ]; simpl digits2_pos.
  - rewrite Pos2Z.inj_succ.
    replace (Z.succ (Zpos (digits2_pos m)) - 1)
      with (Z.succ (Zpos (digits2_pos m) - 1)) by lia.
    rewrite Z.pow_succ_r by lia. lia.
  - rewrite Pos2Z.inj_succ.
    replace (Z.succ (Zpos (digits2_pos m)) - 1)
      with (Z.succ (Zpos (digits2_pos m) - 1)) by lia.
    rewrite Z.pow_succ_r by lia. lia.
  - simpl. lia.
Qed.

Lemma digits2_pos_upper (m : positive) :
  Zpos m < 2 ^ Zpos (digits2_pos m).
Proof.
  induction m as [m IH | m IH | ]; simpl digits2_pos.
  - rewrite Pos2Z.inj_succ, Z.pow_succ_r by lia. lia.
  - rewrite Pos2Z.inj_succ, Z.pow_succ_r by lia. lia.
  - simpl. lia.
Qed.

Lemma shr_1_half (mrs : shr_record) :
  0 <= shr_m mrs -> shr_m (shr_1 mrs) = shr_m mrs / 2.
Proof.
  destruct mrs as [m r s]. simpl shr_m. intros Hm.
  destruct m as [ | [p | p | ] | p ]; simpl shr_m.
  - reflexivity.
  - rewrite Pos2Z.inj_xI. apply Z.div_unique with (r := 1); lia.
  - rewrite Pos2Z.inj_xO. apply Z.div_unique with (r := 0); lia.
  - reflexivity.
  - lia.
Qed.

Lemma shr_iter_pos (p : positive) :
  forall mrs, 0 <= shr_m mrs ->
              shr_m (iter_pos shr_1 p mrs) = shr_m mrs / 2 ^ Zpos p.
Proof.
  induction p as [p IH | p IH | ]; intros mrs Hm; simpl iter_pos.
  - assert (H1 : 0 <= shr_m (shr_1 mrs)).
    { rewrite shr_1_half by assumption. apply Z.div_pos; lia. }
    assert (H2 : 0 <= shr_m (iter_pos shr_1 p (shr_1 mrs))).
    { rewrite IH by assumption. apply Z.div_pos; lia. }
    rewrite IH, IH, shr_1_half by assumption.
    rewrite !Z.div_div by lia.
    f_equal.
    replace (Zpos p~1) with (1 + Zpos p + Zpos p) by lia.
    rewrite !Z.pow_add_r, Z.pow_1_r by lia. ring.
  - assert (H2 : 0 <= shr_m (iter_pos shr_1 p mrs)).
    { rewrite IH by assumption. apply Z.div_pos; lia. }
    rewrite IH, IH by assumption.
    rewrite !Z.div_div by lia.
    f_equal.
    replace (Zpos p~0) with (Zpos p + Zpos p) by lia.
    rewrite Z.pow_add_r by lia. reflexivity.
  - rewrite shr_1_half by assumption. reflexivity.
Qed.


Lemma shr_m_of_loc (m : Z) (l : location) : shr_m (shr_record_of_loc m l) = m.
Proof. destruct l as [ | [ | | ]]; reflexivity. Qed.

Lemma shr_fexp_nonneg (m e : Z) (l : location) :
  0 <= m -> 0 <= shr_m (fst (shr_fexp prec emax m e l)).
Proof.
  intros Hm. unfold shr_fexp, shr.
  destruct (fexp prec emax (Zdigits2 m + e) - e) as [ | p | p ]; simpl fst;
    try (rewrite shr_m_of_loc; exact Hm).
  rewrite shr_iter_pos by (rewrite shr_m_of_loc; exact Hm).
  apply Z.div_pos; [ rewrite shr_m_of_loc; exact Hm | lia ].
Qed.

Lemma shr_fexp_pos (m e : Z) (l : location) :
  1 <= m -> -1074 <= e ->
  1 <= shr_m (fst (shr_fexp prec emax m e l)) /\
  -1074 <= snd (shr_fexp prec emax m e l).
Proof.
  intros Hm He. unfold shr_fexp, shr.
  destruct (fexp prec emax (Zdigits2 m + e) - e) as [ | p | p ] eqn:Hn;
    simpl fst; simpl snd; try (rewrite shr_m_of_loc; split; assumption).
  rewrite fexp_eq in Hn.
  destruct m as [ | m | m ]; try lia. simpl Zdigits2 in Hn.
  rewrite shr_iter_pos by (rewrite shr_m_of_loc; lia).
  rewrite shr_m_of_loc. split; [ | lia ].
  apply Z.div_le_lower_bound; [ lia | ].
  rewrite Z.mul_1_r.
  apply Z.le_trans with (2 ^ (Zpos (digits2_pos m) - 1)).
  - apply Z.pow_le_mono_r; lia.
  - apply digits2_pos_lower.
Qed.

Lemma round_nearest_even_ge (m : Z) (l : location) :
  m <= round_nearest_even m l.
Proof.
  destruct l as [ | [ | | ]]; simpl; try destruct (Z.even m); lia.
Qed.

(** What rounding returns for a non-negative mantissa is a number. *)
Lemma binary_round_aux_not_NaN (s : bool) (m e : Z) (l : location) :
  0 <= m -> isNaN (binary_round_aux prec emax s m e l) = false.
Proof.
  intros Hm. unfold binary_round_aux.
  pose proof (shr_fexp_nonneg m e l Hm) as H1.
  destruct (shr_fexp prec emax m e l) as [mrs1 e1]. simpl fst in H1.
  pose proof (round_nearest_even_ge (shr_m mrs1) (loc_of_shr_record mrs1))
    as Hr.
  pose proof (shr_fexp_nonneg
                (round_nearest_even (shr_m mrs1) (loc_of_shr_record mrs1))
                e1 loc_Exact ltac:(lia)) as H2.
  destruct (shr_fexp prec emax _ e1 loc_Exact) as [mrs2 e2]. simpl fst in H2.
  destruct (shr_m mrs2) as [ | p | p ].
  - reflexivity.
  - destruct (e2 <=? emax - prec); reflexivity.
  - lia.
Qed.

(** Above the smallest exponent, rounding a positive mantissa does not
    underflow to zero. *)
Lemma binary_round_aux_nonzero (s : bool) (m e : Z) (l : location) :
  1 <= m -> -1074 <= e -> nonzero (binary_round_aux prec emax s m e l) = true.
Proof.
  intros Hm He. unfold binary_round_aux.
  destruct (shr_fexp_pos m e l Hm He) as [H1 H1e].
  destruct (shr_fexp prec emax m e l) as [mrs1 e1].
  simpl fst in H1; simpl snd in H1e.
  pose proof (round_nearest_even_ge (shr_m mrs1) (loc_of_shr_record mrs1))
    as Hr.
  destruct (shr_fexp_pos
              (round_nearest_even (shr_m mrs1) (loc_of_shr_record mrs1))
              e1 loc_Exact ltac:(lia) H1e) as [H2 _].
  destruct (shr_fexp prec emax _ e1 loc_Exact) as [mrs2 e2]. simpl fst in H2.
  destruct (shr_m mrs2) as [ | p | p ]; try lia.
  destruct (e2 <=? emax - prec); reflexivity.
Qed.

Lemma binary_round_nonzero (s : bool) (m : positive) (e : Z) :
  -1074 <= e -> nonzero (binary_round prec emax s m e) = true.
Proof.
  intros He. unfold binary_round, shl_align.
  destruct (fexp prec emax (Zpos (digits2_pos m) + e) - e) as [ | p | p ] eqn:Hn;
    apply binary_round_aux_nonzero; try lia.
  rewrite fexp_eq. lia.
Qed.

Lemma binary_normalize_nonzero (m e : Z) (sz : bool) :
  m <> 0 -> -1074 <= e ->
  nonzero (binary_normalize prec emax m e sz) = true.
Proof.
  intros Hm He. destruct m as [ | p | p ]; simpl.
  - contradiction Hm; reflexivity.
  - now apply binary_round_nonzero.
  - now apply binary_round_nonzero.
Qed.

Lemma Zpos_iter_xO (m d : positive) :
  Zpos (Pos.iter xO m d) = Zpos m * 2 ^ Zpos d.
Proof.
  revert m. induction d as [d IH | d IH | ]; intros m; simpl Pos.iter.
  - rewrite Pos2Z.inj_xO, IH, IH.
    replace (Zpos d~1) with (1 + Zpos d + Zpos d) by lia.
    rewrite !Z.pow_add_r, Z.pow_1_r by lia. ring.
  - rewrite IH, IH.
    replace (Zpos d~0) with (Zpos d + Zpos d) by lia.
    rewrite Z.pow_add_r by lia. ring.
  - rewrite Pos2Z.inj_xO, Z.pow_1_r. ring.
Qed.

Lemma shl_align_fst (m : positive) (e e' : Z) :
  e' <= e -> Zpos (fst (shl_align m e e')) = Zpos m * 2 ^ (e - e').
Proof.
  intros He. unfold shl_align.
  destruct (e' - e) as [ | d | d ] eqn:Hd; simpl fst.
  - replace (e - e') with 0 by lia. simpl. lia.
  - lia.
  - rewrite Zpos_iter_xO. f_equal. f_equal. lia.
Qed.

Lemma valid_finite_inv (s : bool) (m : positive) (e : Z) :
  valid (S754_finite s m e) = true ->
  -1074 <= e /\ Zpos (digits2_pos m) <= 53 /\
  (-1074 < e -> Zpos (digits2_pos m) = 53).
Proof.
  unfold valid, valid_binary, bounded, canonical_mantissa.
  rewrite fexp_eq. intros H.
  apply andb_true_iff in H. destruct H as [H _].
  apply Z.eqb_eq in H. lia.
Qed.

End Rounding.

(** ** Comparison, subtraction and division of finite numbers *)

Section Comparison.

Lemma SFcompare_antisym (x y : number) :
  SFcompare y x = option_map CompOpp (SFcompare x y).
Proof.
  destruct x as [sx | sx | | sx mx ex], y as [sy | sy | | sy my ey];
    try reflexivity;
    try (destruct sx; reflexivity);
    try (destruct sy; reflexivity);
    try (destruct sx, sy; reflexivity).
  simpl. destruct sx, sy; try reflexivity;
    rewrite (Z.compare_antisym ex ey);
    destruct (ex ?= ey); simpl; try reflexivity;
    change (Pos.compare_cont Eq my mx) with (Pos.compare my mx);
    change (Pos.compare_cont Eq mx my) with (Pos.compare mx my);
    rewrite (Pos.compare_antisym mx my);
    destruct (Pos.compare mx my); reflexivity.
Qed.

Lemma gt_not_le (x y : number) : gt x y = true -> le x y = false.
Proof.
  unfold gt, le, SFltb, SFleb. rewrite (SFcompare_antisym x y).
  destruct (SFcompare x y) as [[ | | ] | ]; simpl; intros H;
    try discriminate H; reflexivity.
Qed.

Lemma canonical_exponent_order (s1 s2 : bool) (m1 m2 : positive) (e1 e2 : Z) :
  valid (S754_finite s1 m1 e1) = true ->
  valid (S754_finite s2 m2 e2) = true ->
  e2 < e1 ->
  Zpos m2 < Zpos m1 * 2 ^ (e1 - e2).
Proof.
  intros V1 V2 He.
  apply valid_finite_inv in V1. destruct V1 as (L1 & _ & D1).
  apply valid_finite_inv in V2. destruct V2 as (L2 & D2 & _).
  pose proof (digits2_pos_lower m1) as Hlo.
  pose proof (digits2_pos_upper m2) as Hup.
  rewrite D1 in Hlo by lia.
  assert (Hp : 2 ^ Zpos (digits2_pos m2) <= 2 ^ 53)
    by (apply Z.pow_le_mono_r; lia).
  assert (Hk : 2 ^ 1 <= 2 ^ (e1 - e2)) by (apply Z.pow_le_mono_r; lia).
  change (2 ^ (53 - 1)) with 4503599627370496 in Hlo.
  change (2 ^ 53) with 9007199254740992 in Hp.
  change (2 ^ 1) with 2 in Hk.
  nia.
Qed.

(** The difference of two binary64 numbers [x > y] is neither a zero nor
    [NaN]. *)
Lemma sub_nonzero (x y : number) :
  isFinite x = true -> isFinite y = true ->
  valid x = true -> valid y = true ->
  le x y = false ->
  nonzero (sub x y) = true.
Proof.
  destruct x as [sx | sx | | sx mx ex]; intros Fx; try discriminate Fx;
    destruct y as [sy | sy | | sy my ey]; intros Fy; try discriminate Fy;
    intros Vx Vy Hle; try reflexivity.
  - discriminate Hle.
  - unfold sub, SFsub.
    destruct (valid_finite_inv _ _ _ Vx) as (Lx & _).
    destruct (valid_finite_inv _ _ _ Vy) as (Ly & _).
    apply binary_normalize_nonzero; [ | lia ].
    rewrite !shl_align_fst by lia.
    assert (Px : 0 < Zpos mx * 2 ^ (ex - Z.min ex ey))
      by (apply Z.mul_pos_pos; [ lia | apply Z.pow_pos_nonneg; lia ]).
    assert (Py : 0 < Zpos my * 2 ^ (ey - Z.min ex ey))
      by (apply Z.mul_pos_pos; [ lia | apply Z.pow_pos_nonneg; lia ]).
    unfold le, SFleb, SFcompare in Hle.
    destruct sx, sy; unfold cond_Zopp; try discriminate Hle; try lia.
    + (* both negative *)
      destruct (ex ?= ey) eqn:Hc; try discriminate Hle.
      * apply Z.compare_eq in Hc. subst ey.
        change (Pos.compare_cont Eq mx my) with (Pos.compare mx my) in Hle.
        destruct (Pos.compare mx my) eqn:Hm; try discriminate Hle.
        assert (Hlt : (mx < my)%positive) by exact Hm.
        rewrite Z.min_id, Z.sub_diag, Z.pow_0_r. lia.
      * assert (Hlt : ex < ey) by exact Hc. clear Hc.
        pose proof (canonical_exponent_order _ _ _ _ _ _ Vy Vx Hlt) as Ho.
        rewrite Z.min_l, Z.sub_diag, Z.pow_0_r by lia. lia.
    + (* both positive *)
      destruct (ex ?= ey) eqn:Hc; try discriminate Hle.
      * apply Z.compare_eq in Hc. subst ey.
        change (Pos.compare_cont Eq mx my) with (Pos.compare mx my) in Hle.
        destruct (Pos.compare mx my) eqn:Hm; try discriminate Hle.
        assert (Hgt : (my < mx)%positive)
          by (apply Pos.compare_gt_iff; exact Hm).
        rewrite Z.min_id, Z.sub_diag, Z.pow_0_r. lia.
      * assert (Hgt : ey < ex) by (apply Z.compare_gt_iff; exact Hc). clear Hc.
        pose proof (canonical_exponent_order _ _ _ _ _ _ Vx Vy Hgt) as Ho.
        rewrite Z.min_r, Z.sub_diag, Z.pow_0_r by lia. lia.
Qed.

(** A finite dividend over a divisor that is neither a zero nor [NaN]
    gives a number. *)
Lemma div_finite_not_NaN (x y : number) :
  isFinite x = true -> nonzero y = true -> isNaN (div x y) = false.
Proof.
  destruct x as [sx | sx | | sx mx ex]; intros Fx; try discriminate Fx;
    destruct y as [sy | sy | | sy my ey]; intros Ny; try discriminate Ny;
    try reflexivity.
  unfold div, SFdiv, SFdiv_core_binary.
  set (s := ex - ey - _).
  set (m' := match s with Z0 => Zpos mx | Zpos _ => Z.shiftl (Zpos mx) s
                        | Zneg _ => 0 end).
  assert (Hm' : 0 <= m').
  { subst m'. destruct s as [ | p | p ]; try lia.
    apply Z.shiftl_nonneg. lia. }
  assert (Hq : 0 <= fst (Z.div_eucl m' (Zpos my))).
  { change (fst (Z.div_eucl m' (Zpos my))) with (m' / Zpos my).
    apply Z.div_pos; lia. }
  destruct (Z.div_eucl m' (Zpos my)) as [q r]. simpl fst in Hq.
  now apply binary_round_aux_not_NaN.
Qed.

End Comparison.

(** ** Tactics *)

Ltac nan_arg H :=
  repeat (apply orb_true_iff in H; destruct H as [H | H]);
  apply isNaN_eq in H; subst;
  try apply guard_NaN; cbv zeta; autorewrite with js_nan; reflexivity.

(** ** Guards *)

(** C2: each of the six functions with a documented zero-denominator guard
    returns [NaN] when the guarded denominator is a zero of either sign
    (the model is a total function, so nothing is thrown), and [NaN] is
    [===] to no number, itself included. *)
Theorem zero_denominator_returns_NaN :
  (forall s rf ar, calculateSharpeRatio rf ar (S754_zero s) = NaN) /\
  (forall s ar mr, calculateTreynorRatio ar mr (S754_zero s) = NaN) /\
  (forall s rf ar, calculateSortinoRatio rf ar (S754_zero s) = NaN) /\
  (forall s ev, calculateEnterpriseValueToEBITDA ev (S754_zero s) = NaN) /\
  (forall s sp, calculatePriceToBook sp (S754_zero s) = NaN) /\
  (forall s eps g, calculateGrahamNumber eps g (S754_zero s) = NaN) /\
  (forall s g b, calculateGrahamNumber (S754_zero s) g b = NaN) /\
  (forall x, strict_eq NaN x = false) /\
  (forall x, strict_eq x NaN = false) /\
  isNaN NaN = true.
Proof.
  repeat split; intros;
    try (cbv beta delta
           [calculateSharpeRatio calculateTreynorRatio calculateSortinoRatio
            calculateEnterpriseValueToEBITDA calculatePriceToBook
            calculateGrahamNumber];
         autorewrite with js_nan; reflexivity).
Qed.

(** ** Formulas *)

(** C5: with [standardDeviation !== 0] the Sharpe ratio is
    [(averageReturn - riskFreeRate) / standardDeviation]; on the README
    inputs it agrees with 0.5333 to the four decimals shown. *)
Theorem calculateSharpeRatio_formula :
  (forall rf ar sd,
      strict_eq sd (int 0) = false ->
      calculateSharpeRatio rf ar sd = div (sub ar rf) sd) /\
  within (5 # 100000)
    (calculateSharpeRatio Example.riskFreeRate Example.averageReturn
       Example.standardDeviation)
    (5333 # 10000) = true.
Proof.
  split.
  - intros rf ar sd Hsd. unfold calculateSharpeRatio. now rewrite Hsd.
  - vm_compute. reflexivity.
Qed.

Lemma calculateSharpeRatio_formula_witness :
  strict_eq Example.standardDeviation (int 0) = false /\
  calculateSharpeRatio Example.riskFreeRate Example.averageReturn
    Example.standardDeviation
  = div (sub Example.averageReturn Example.riskFreeRate)
        Example.standardDeviation.
Proof.
  split.
  - reflexivity.
  - apply (proj1 calculateSharpeRatio_formula). reflexivity.
Defined.

(** C6: with [beta !== 0] the Treynor ratio is
    [(averageReturn - marketReturn) / beta], the excess over the market
    return; on the README inputs it agrees with 0.01667 to the five decimals
    shown. *)
Theorem calculateTreynorRatio_formula :
  (forall ar mr beta,
      strict_eq beta (int 0) = false ->
      calculateTreynorRatio ar mr beta = div (sub ar mr) beta) /\
  within (5 # 1000000)
    (calculateTreynorRatio Example.averageReturn Example.marketReturn
       Example.beta)
    (1667 # 100000) = true.
Proof.
  split.
  - intros ar mr beta Hb. unfold calculateTreynorRatio.
    destruct (strict_eq beta (int 0)); [discriminate Hb | reflexivity].
  - vm_compute. reflexivity.
Qed.

Lemma calculateTreynorRatio_formula_witness :
  strict_eq Example.beta (int 0) = false /\
  calculateTreynorRatio Example.averageReturn Example.marketReturn
    Example.beta
  = div (sub Example.averageReturn Example.marketReturn) Example.beta.
Proof.
  split.
  - reflexivity.
  - apply (proj1 calculateTreynorRatio_formula). reflexivity.
Defined.

(** C7: the CAPM expected return has no guard: on every input it is
    [riskFreeRate + beta * (marketReturn - riskFreeRate)]; on the README
    inputs it is the number written [0.092]. *)
Theorem calculateExpectedReturnCAPM_formula :
  (forall rf mr beta,
      calculateExpectedReturnCAPM rf mr beta = add rf (mul beta (sub mr rf))) /\
  calculateExpectedReturnCAPM Example.riskFreeRate Example.marketReturn
    Example.beta = dec 92 3 /\
  within (5 # 10000)
    (calculateExpectedReturnCAPM Example.riskFreeRate Example.marketReturn
       Example.beta)
    (92 # 1000) = true.
Proof.
  split; [ | split ].
  - reflexivity.
  - vm_compute. reflexivity.
  - vm_compute. reflexivity.
Qed.

(** C9: the Sortino and Sharpe exports are the same function. *)
Theorem calculateSortinoRatio_eq_calculateSharpeRatio :
  forall r a d, calculateSortinoRatio r a d = calculateSharpeRatio r a d.
Proof. intros r a d. reflexivity. Qed.

(** ** NaN arguments *)

(** C10: every exported function returns [NaN] as soon as one of its
    arguments is [NaN]. *)
Theorem NaN_argument_gives_NaN :
  (forall rf ar sd,
      isNaN rf || isNaN ar || isNaN sd = true ->
      calculateSharpeRatio rf ar sd = NaN) /\
  (forall ar mr beta,
      isNaN ar || isNaN mr || isNaN beta = true ->
      calculateTreynorRatio ar mr beta = NaN) /\
  (forall rf ar dd,
      isNaN rf || isNaN ar || isNaN dd = true ->
      calculateSortinoRatio rf ar dd = NaN) /\
  (forall ev ebitda,
      isNaN ev || isNaN ebitda = true ->
      calculateEnterpriseValueToEBITDA ev ebitda = NaN) /\
  (forall sp bv,
      isNaN sp || isNaN bv = true ->
      calculatePriceToBook sp bv = NaN) /\
  (forall eps g b,
      isNaN eps || isNaN g || isNaN b = true ->
      calculateGrahamNumber eps g b = NaN) /\
  (forall rf mr beta,
      isNaN rf || isNaN mr || isNaN beta = true ->
      calculateExpectedReturnCAPM rf mr beta = NaN) /\
  (forall wc re ta mve tl,
      isNaN wc || isNaN re || isNaN ta || isNaN mve || isNaN tl = true ->
      calculateAltmanZScore wc re ta mve tl = NaN) /\
  (forall cd g d,
      isNaN cd || isNaN g || isNaN d = true ->
      calculateGordonIntrinsicValueDDM cd g d = NaN).
Proof.
  repeat split.
  - intros rf ar sd H. unfold calculateSharpeRatio. nan_arg H.
  - intros ar mr beta H. unfold calculateTreynorRatio. nan_arg H.
  - intros rf ar dd H. unfold calculateSortinoRatio. nan_arg H.
  - intros ev ebitda H. unfold calculateEnterpriseValueToEBITDA. nan_arg H.
  - intros sp bv H. unfold calculatePriceToBook. nan_arg H.
  - intros eps g b H. unfold calculateGrahamNumber. nan_arg H.
  - intros rf mr beta H. unfold calculateExpectedReturnCAPM. nan_arg H.
  - intros wc re ta mve tl H. unfold calculateAltmanZScore. nan_arg H.
  - intros cd g d H. unfold calculateGordonIntrinsicValueDDM. nan_arg H.
Qed.

Lemma NaN_argument_gives_NaN_witness :
  isNaN Example.currentDividend || isNaN NaN || isNaN Example.discountRate
  = true /\
  calculateGordonIntrinsicValueDDM Example.currentDividend NaN
    Example.discountRate = NaN.
Proof.
  split.
  - reflexivity.
  - apply NaN_argument_gives_NaN. reflexivity.
Defined.

(** ** Graham number *)

(** C3, the README value as the specification gives it: the code's result
    on [(5, 0.05, 0.03)] does not agree with 826.8 to the decimal shown; it
    is more than 3 away from it. *)
Lemma calculateGrahamNumber_example_is_not_826_8 :
  within (5 # 100)
    (calculateGrahamNumber Example.earningsPerShare Example.epsGrowthRate
       Example.bondYield)
    (8268 # 10) = false /\
  within 3
    (calculateGrahamNumber Example.earningsPerShare Example.epsGrowthRate
       Example.bondYield)
    (8268 # 10) = false.
Proof. split; vm_compute; reflexivity. Qed.

(** C3, amended: with [earningsPerShare !== 0] and [bondYield !== 0] the
    Graham number is
    [earningsPerShare * (1 + epsGrowthRate) * Math.sqrt(22.5) / bondYield],
    the operators taken left to right; on [(5, 0.05, 0.03)] it is the number
    written [830.0978857941996], which agrees with 830.1 to one decimal. *)
Theorem calculateGrahamNumber_formula :
  (forall eps g b,
      strict_eq eps (int 0) = false ->
      strict_eq b (int 0) = false ->
      calculateGrahamNumber eps g b
      = div (mul (mul eps (add (int 1) g)) (sqrt (dec 225 1))) b) /\
  calculateGrahamNumber Example.earningsPerShare Example.epsGrowthRate
    Example.bondYield = dec 8300978857941996 13 /\
  within (5 # 100)
    (calculateGrahamNumber Example.earningsPerShare Example.epsGrowthRate
       Example.bondYield)
    (8301 # 10) = true.
Proof.
  split; [ | split ].
  - intros eps g b He Hb. unfold calculateGrahamNumber.
    rewrite He, Hb. reflexivity.
  - vm_compute. reflexivity.
  - vm_compute. reflexivity.
Qed.

Lemma calculateGrahamNumber_formula_witness :
  strict_eq Example.earningsPerShare (int 0) = false /\
  strict_eq Example.bondYield (int 0) = false /\
  calculateGrahamNumber Example.earningsPerShare Example.epsGrowthRate
    Example.bondYield
  = div (mul (mul Example.earningsPerShare
                  (add (int 1) Example.epsGrowthRate))
             (sqrt (dec 225 1)))
        Example.bondYield.
Proof.
  split; [ | split ].
  - reflexivity.
  - reflexivity.
  - apply (proj1 calculateGrahamNumber_formula); reflexivity.
Defined.

(** ** Altman Z-score *)

(** C1, the formula as the specification groups it: on the README inputs
    the code returns the number written [4.575000000000001], while weighting
    the ratios [workingCapital / totalAssets], ... gives
    [4.574999999999999]. *)
Lemma calculateAltmanZScore_is_not_as_specified :
  calculateAltmanZScore Example.workingCapital Example.retainedEarnings
    Example.totalAssets Example.marketValueEquity Example.totalLiabilities
  = dec 4575000000000001 15 /\
  altman_as_specified Example.workingCapital Example.retainedEarnings
    Example.totalAssets Example.marketValueEquity Example.totalLiabilities
  = dec 4574999999999999 15 /\
  calculateAltmanZScore Example.workingCapital Example.retainedEarnings
    Example.totalAssets Example.marketValueEquity Example.totalLiabilities
  <> altman_as_specified Example.workingCapital Example.retainedEarnings
       Example.totalAssets Example.marketValueEquity
       Example.totalLiabilities.
Proof.
  split; [ | split ].
  - vm_compute. reflexivity.
  - vm_compute. reflexivity.
  - vm_compute. intros H. discriminate H.
Qed.

(** C1, amended: on every input the Altman Z-score is
    [numerator / denominator] with
    [numerator = (1.2 * workingCapital) / totalAssets
               + (1.4 * retainedEarnings) / totalAssets
               + (3.3 * marketValueEquity) / totalLiabilities
               + (0.6 * (totalAssets - totalLiabilities)) / totalLiabilities]
    (each weight multiplied in before the division) and
    [denominator = marketValueEquity / totalLiabilities].  There is no
    guard: with [totalAssets] a zero the result is an infinity or [NaN],
    and with [totalLiabilities] a zero it is [NaN], both produced by the
    divisions themselves. *)
Theorem calculateAltmanZScore_formula :
  (forall wc re ta mve tl,
      calculateAltmanZScore wc re ta mve tl
      = div (add (add (add (div (mul (dec 12 1) wc) ta)
                           (div (mul (dec 14 1) re) ta))
                      (div (mul (dec 33 1) mve) tl))
                 (div (mul (dec 6 1) (sub ta tl)) tl))
            (div mve tl)) /\
  (forall s wc re mve tl,
      isFinite (calculateAltmanZScore wc re (S754_zero s) mve tl) = false) /\
  (forall s wc re ta mve,
      calculateAltmanZScore wc re ta mve (S754_zero s) = NaN).
Proof.
  split; [ | split ].
  - reflexivity.
  - intros s wc re mve tl. unfold calculateAltmanZScore.
    apply div_not_finite_l.
    do 3 apply add_not_finite_l.
    apply div_zero_not_finite.
  - intros s wc re ta mve. unfold calculateAltmanZScore.
    apply div_not_finite_both.
    + apply add_not_finite_r, div_zero_not_finite.
    + apply div_zero_not_finite.
Qed.

(** ** Gordon growth model *)

(** C4, the claim as stated: the function returns [NaN] on inputs whose
    [discountRate <= growthRate] is false, when [currentDividend] is [NaN]
    and when [currentDividend] and [discountRate] are both infinite; and on
    [(2, 0.06, 0.1)] it returns the number written [49.99999999999999],
    which is not [50]. *)
Lemma calculateGordonIntrinsicValueDDM_not_as_stated :
  (le (int 1) (int 0) = false /\
   calculateGordonIntrinsicValueDDM NaN (int 0) (int 1) = NaN) /\
  (le (S754_infinity false) (int 0) = false /\
   calculateGordonIntrinsicValueDDM
     (S754_infinity false) (int 0) (S754_infinity false) = NaN) /\
  calculateGordonIntrinsicValueDDM Example.currentDividend Example.growthRate
    Example.discountRate = dec 4999999999999999 14 /\
  calculateGordonIntrinsicValueDDM Example.currentDividend Example.growthRate
    Example.discountRate <> int 50.
Proof.
  repeat split; try reflexivity.
  vm_compute. intros H. discriminate H.
Qed.

(** C4, amended: the function returns [NaN] whenever
    [discountRate <= growthRate]; when the three arguments are finite
    numbers it returns [NaN] only then; for every input with
    [discountRate > growthRate] it returns
    [currentDividend / (discountRate - growthRate)]; on [(2, 0.06, 0.1)]
    that is the number written [49.99999999999999], within [1e-14] of 50;
    and with [discountRate = 0.05], [growthRate = 0.06] it returns [NaN]. *)
Theorem calculateGordonIntrinsicValueDDM_cases :
  (forall cd g d,
      le d g = true -> calculateGordonIntrinsicValueDDM cd g d = NaN) /\
  (forall cd g d,
      isFinite cd = true -> isFinite g = true -> isFinite d = true ->
      valid g = true -> valid d = true ->
      (isNaN (calculateGordonIntrinsicValueDDM cd g d) = true
       <-> le d g = true)) /\
  (forall cd g d,
      gt d g = true ->
      calculateGordonIntrinsicValueDDM cd g d = div cd (sub d g)) /\
  calculateGordonIntrinsicValueDDM Example.currentDividend Example.growthRate
    Example.discountRate = dec 4999999999999999 14 /\
  within (1 # 100000000000000)
    (calculateGordonIntrinsicValueDDM Example.currentDividend
       Example.growthRate Example.discountRate)
    50 = true /\
  (forall cd, calculateGordonIntrinsicValueDDM cd (dec 6 2) (dec 5 2) = NaN).
Proof.
  repeat apply conj.
  - intros cd g d H. unfold calculateGordonIntrinsicValueDDM.
    rewrite H. reflexivity.
  - intros cd g d Fc Fg Fd Vg Vd. unfold calculateGordonIntrinsicValueDDM.
    case_eq (le d g); intros Hle.
    + split; reflexivity.
    + rewrite div_finite_not_NaN.
      * split; intros H; discriminate H.
      * exact Fc.
      * now apply sub_nonzero.
  - intros cd g d H. unfold calculateGordonIntrinsicValueDDM.
    rewrite (gt_not_le _ _ H). reflexivity.
  - vm_compute. reflexivity.
  - vm_compute. reflexivity.
  - intros cd. reflexivity.
Qed.

Lemma calculateGordonIntrinsicValueDDM_cases_witness :
  isFinite Example.currentDividend = true /\
  isFinite Example.growthRate = true /\
  isFinite Example.discountRate = true /\
  valid Example.growthRate = true /\
  valid Example.discountRate = true /\
  (isNaN (calculateGordonIntrinsicValueDDM Example.currentDividend
            Example.growthRate Example.discountRate) = true
   <-> le Example.discountRate Example.growthRate = true).
Proof.
  do 5 (split; [ reflexivity | ]).
  apply (proj1 (proj2 calculateGordonIntrinsicValueDDM_cases));
    reflexivity.
Defined.

(** * Further properties of the nine functions *)

Section Signs.

Lemma isZero_strict_eq (x : number) : strict_eq x (int 0) = isZero x.
Proof. destruct x as [s | s | | s m e]; try destruct s; reflexivity. Qed.

(** Rounding keeps the sign it is given. *)
Lemma binary_round_aux_sign (s : bool) (m e : Z) (l : location) :
  0 <= m -> has_sign s (binary_round_aux prec emax s m e l) = true.
Proof.
  intros Hm.
  pose proof (binary_round_aux_not_NaN s m e l Hm) as HN.
  unfold binary_round_aux in *.
  destruct (shr_fexp prec emax m e l) as [mrs1 e1].
  destruct (shr_fexp prec emax _ e1 loc_Exact) as [mrs2 e2].
  destruct (shr_m mrs2) as [ | p | p ].
  - apply eqb_reflx.
  - destruct (e2 <=? emax - prec); apply eqb_reflx.
  - discriminate HN.
Qed.

Lemma binary_round_aux_neg (s : bool) (m e : Z) (l : location) :
  binary_round_aux prec emax (negb s) m e l
  = neg (binary_round_aux prec emax s m e l).
Proof.
  unfold binary_round_aux.
  destruct (shr_fexp prec emax m e l) as [mrs1 e1].
  destruct (shr_fexp prec emax _ e1 loc_Exact) as [mrs2 e2].
  destruct (shr_m mrs2) as [ | p | p ]; try reflexivity.
  destruct (e2 <=? emax - prec); reflexivity.
Qed.

Lemma has_sign_nonneg (x : number) :
  has_sign false x = true -> le (int 0) x = true.
Proof. destruct x as [s | s | | s m e]; try destruct s; intros H;
         try discriminate H; reflexivity. Qed.

Lemma has_sign_nonpos (x : number) :
  has_sign true x = true -> le x (int 0) = true.
Proof. destruct x as [s | s | | s m e]; try destruct s; intros H;
         try discriminate H; reflexivity. Qed.

Lemma nonneg_cases (x : number) :
  le (int 0) x = true -> isZero x = true \/ has_sign false x = true.
Proof. destruct x as [s | s | | s m e]; try destruct s; intros H;
         try discriminate H; auto. Qed.

Lemma nonpos_cases (x : number) :
  le x (int 0) = true -> isZero x = true \/ has_sign true x = true.
Proof. destruct x as [s | s | | s m e]; try destruct s; intros H;
         try discriminate H; auto. Qed.

End Signs.

Section NotNaN.

Lemma binary_normalize_not_NaN (m e : Z) (sz : bool) :
  isNaN (binary_normalize prec emax m e sz) = false.
Proof.
  destruct m as [ | p | p ]; simpl; try reflexivity;
    unfold binary_round;
    destruct (shl_align p e _) as [mz ez];
    apply binary_round_aux_not_NaN; lia.
Qed.

Lemma add_finite_not_NaN (x y : number) :
  isFinite x = true -> isFinite y = true -> isNaN (add x y) = false.
Proof.
  destruct x as [sx | sx | | sx mx ex]; intros Fx; try discriminate Fx;
    destruct y as [sy | sy | | sy my ey]; intros Fy; try discriminate Fy;
    try reflexivity.
  - destruct sx, sy; reflexivity.
  - apply binary_normalize_not_NaN.
Qed.

Lemma sub_finite_not_NaN (x y : number) :
  isFinite x = true -> isFinite y = true -> isNaN (sub x y) = false.
Proof.
  destruct x as [sx | sx | | sx mx ex]; intros Fx; try discriminate Fx;
    destruct y as [sy | sy | | sy my ey]; intros Fy; try discriminate Fy;
    try reflexivity.
  - destruct sx, sy; reflexivity.
  - apply binary_normalize_not_NaN.
Qed.

Lemma mul_finite_l_not_NaN (sx : bool) (mx : positive) (ex : Z) (y : number) :
  isNaN y = false -> isNaN (mul (S754_finite sx mx ex) y) = false.
Proof.
  destruct y as [sy | sy | | sy my ey]; intros Ny; try discriminate Ny;
    try reflexivity.
  apply binary_round_aux_not_NaN. lia.
Qed.

Lemma mul_finite_r_not_NaN (x : number) (sy : bool) (my : positive) (ey : Z) :
  isNaN x = false -> isNaN (mul x (S754_finite sy my ey)) = false.
Proof.
  destruct x as [sx | sx | | sx mx ex]; intros Nx; try discriminate Nx;
    try reflexivity.
  apply binary_round_aux_not_NaN. lia.
Qed.

Lemma div_by_finite_not_NaN (x : number) (sy : bool) (my : positive) (ey : Z) :
  isNaN x = false -> isNaN (div x (S754_finite sy my ey)) = false.
Proof.
  destruct x as [sx | sx | | sx mx ex]; intros Nx; try discriminate Nx;
    try reflexivity.
  now apply div_finite_not_NaN.
Qed.

End NotNaN.

Section Differences.

(** The exact difference of the aligned mantissas of [x > y] is positive. *)
Lemma aligned_difference_pos (sx sy : bool) (mx my : positive) (ex ey : Z) :
  valid (S754_finite sx mx ex) = true ->
  valid (S754_finite sy my ey) = true ->
  le (S754_finite sx mx ex) (S754_finite sy my ey) = false ->
  0 < cond_Zopp sx (Zpos (fst (shl_align mx ex (Z.min ex ey))))
      - cond_Zopp sy (Zpos (fst (shl_align my ey (Z.min ex ey)))).
Proof.
  intros Vx Vy Hle.
  rewrite !shl_align_fst by lia.
  assert (Px : 0 < Zpos mx * 2 ^ (ex - Z.min ex ey))
    by (apply Z.mul_pos_pos; [ lia | apply Z.pow_pos_nonneg; lia ]).
  assert (Py : 0 < Zpos my * 2 ^ (ey - Z.min ex ey))
    by (apply Z.mul_pos_pos; [ lia | apply Z.pow_pos_nonneg; lia ]).
  unfold le, SFleb, SFcompare in Hle.
  destruct sx, sy; unfold cond_Zopp; try discriminate Hle; try lia.
  - destruct (ex ?= ey) eqn:Hc; try discriminate Hle.
    + apply Z.compare_eq in Hc. subst ey.
      change (Pos.compare_cont Eq mx my) with (Pos.compare mx my) in Hle.
      destruct (Pos.compare mx my) eqn:Hm; try discriminate Hle.
      assert (Hlt : (mx < my)%positive) by exact Hm.
      rewrite Z.min_id, Z.sub_diag, Z.pow_0_r. lia.
    + assert (Hlt : ex < ey) by exact Hc. clear Hc.
      pose proof (canonical_exponent_order _ _ _ _ _ _ Vy Vx Hlt) as Ho.
      rewrite Z.min_l, Z.sub_diag, Z.pow_0_r by lia. lia.
  - destruct (ex ?= ey) eqn:Hc; try discriminate Hle.
    + apply Z.compare_eq in Hc. subst ey.
      change (Pos.compare_cont Eq mx my) with (Pos.compare mx my) in Hle.
      destruct (Pos.compare mx my) eqn:Hm; try discriminate Hle.
      assert (Hgt : (my < mx)%positive)
        by (apply Pos.compare_gt_iff; exact Hm).
      rewrite Z.min_id, Z.sub_diag, Z.pow_0_r. lia.
    + assert (Hgt : ey < ex) by (apply Z.compare_gt_iff; exact Hc). clear Hc.
      pose proof (canonical_exponent_order _ _ _ _ _ _ Vx Vy Hgt) as Ho.
      rewrite Z.min_r, Z.sub_diag, Z.pow_0_r by lia. lia.
Qed.

(** The difference of two binary64 numbers [x > y] has a clear sign bit. *)
Lemma sub_has_sign (x y : number) :
  isFinite x = true -> isFinite y = true ->
  valid x = true -> valid y = true ->
  le x y = false ->
  has_sign false (sub x y) = true.
Proof.
  destruct x as [sx | sx | | sx mx ex]; intros Fx; try discriminate Fx;
    destruct y as [sy | sy | | sy my ey]; intros Fy; try discriminate Fy;
    intros Vx Vy Hle.
  - discriminate Hle.
  - destruct sy; [ reflexivity | discriminate Hle ].
  - destruct sx; [ discriminate Hle | reflexivity ].
  - pose proof (aligned_difference_pos _ _ _ _ _ _ Vx Vy Hle) as Hd.
    unfold sub, SFsub.
    destruct (cond_Zopp sx _ - cond_Zopp sy _) as [ | p | p ]; try lia.
    unfold binary_normalize, binary_round.
    destruct (shl_align p _ _) as [mz ez].
    apply binary_round_aux_sign. lia.
Qed.

(** The sign of a quotient of numbers, when it is a number. *)
Lemma div_has_sign (sx sy : bool) (x y : number) :
  has_sign sx x = true -> has_sign sy y = true ->
  isNaN (div x y) = false ->
  has_sign (xorb sx sy) (div x y) = true.
Proof.
  destruct x as [s1 | s1 | | s1 mx ex]; intros Hx; try discriminate Hx;
    destruct y as [s2 | s2 | | s2 my ey]; intros Hy; try discriminate Hy;
    simpl in Hx, Hy; apply eqb_prop in Hx; apply eqb_prop in Hy; subst;
    intros HN; try discriminate HN; try apply eqb_reflx.
  unfold div, SFdiv, SFdiv_core_binary in *.
  set (s := ex - ey - _) in *.
  set (m' := match s with Z0 => Zpos mx | Zpos _ => Z.shiftl (Zpos mx) s
                        | Zneg _ => 0 end) in *.
  assert (Hm' : 0 <= m').
  { subst m'. destruct s as [ | p | p ]; try lia.
    apply Z.shiftl_nonneg. lia. }
  assert (Hq : 0 <= fst (Z.div_eucl m' (Zpos my))).
  { change (fst (Z.div_eucl m' (Zpos my))) with (m' / Zpos my).
    apply Z.div_pos; lia. }
  destruct (Z.div_eucl m' (Zpos my)) as [q r]. simpl fst in Hq.
  now apply binary_round_aux_sign.
Qed.

End Differences.

Section Zeros.

Lemma isZero_le (x : number) :
  isZero x = true -> le (int 0) x = true /\ le x (int 0) = true.
Proof. destruct x; intros H; try discriminate H; split; reflexivity. Qed.

Lemma div_zero_l (s : bool) (y : number) :
  nonzero y = true -> isZero (div (S754_zero s) y) = true.
Proof. destruct y; intros H; try discriminate H; reflexivity. Qed.

Lemma div_zero_l_cases (s : bool) (y : number) :
  isZero (div (S754_zero s) y) || isNaN (div (S754_zero s) y) = true.
Proof. destruct y; reflexivity. Qed.

End Zeros.

(** ** When the guarded quotients are [NaN] *)

(** X1: the two plain quotients return [NaN] exactly when an argument is
    [NaN], the denominator is a zero, or both arguments are infinite. *)
Theorem plain_ratio_NaN_exactly_when :
  (forall ev ebitda,
      isNaN (calculateEnterpriseValueToEBITDA ev ebitda)
      = isNaN ev || isNaN ebitda || isZero ebitda
        || (isInfinite ev && isInfinite ebitda)) /\
  (forall sp bv,
      isNaN (calculatePriceToBook sp bv)
      = isNaN sp || isNaN bv || isZero bv
        || (isInfinite sp && isInfinite bv)).
Proof.
  assert (H : forall x y,
             isNaN (if strict_eq y (int 0) then NaN else div x y)
             = isNaN x || isNaN y || isZero y
               || (isInfinite x && isInfinite y)).
  { intros x y. rewrite isZero_strict_eq.
    destruct x as [sx | sx | | sx mx ex], y as [sy | sy | | sy my ey];
      try reflexivity.
    cbn [isZero isNaN isInfinite orb andb].
    now apply div_finite_not_NaN. }
  split; intros x y; apply H.
Qed.

(** X2: on finite arguments the guard of the three risk-adjusted ratios is
    the only source of [NaN]: the result is [NaN] exactly when the
    deviation (or beta) is a zero. *)
Theorem risk_ratio_NaN_on_finite_arguments :
  (forall rf ar sd,
      isFinite rf = true -> isFinite ar = true -> isFinite sd = true ->
      isNaN (calculateSharpeRatio rf ar sd) = isZero sd) /\
  (forall ar mr beta,
      isFinite ar = true -> isFinite mr = true -> isFinite beta = true ->
      isNaN (calculateTreynorRatio ar mr beta) = isZero beta) /\
  (forall rf ar dd,
      isFinite rf = true -> isFinite ar = true -> isFinite dd = true ->
      isNaN (calculateSortinoRatio rf ar dd) = isZero dd).
Proof.
  assert (H : forall x y z,
             isFinite x = true -> isFinite y = true -> isFinite z = true ->
             isNaN (if strict_eq z (int 0) then NaN else div (sub x y) z)
             = isZero z).
  { intros x y z Fx Fy Fz. rewrite isZero_strict_eq.
    destruct z as [sz | sz | | sz mz ez]; try discriminate Fz.
    - reflexivity.
    - cbn [isZero]. apply div_by_finite_not_NaN. now apply sub_finite_not_NaN. }
  repeat split; intros; now apply H.
Qed.

Lemma risk_ratio_NaN_on_finite_arguments_witness :
  isFinite Example.riskFreeRate = true /\
  isFinite Example.averageReturn = true /\
  isFinite Example.standardDeviation = true /\
  isNaN (calculateSharpeRatio Example.riskFreeRate Example.averageReturn
           Example.standardDeviation)
  = isZero Example.standardDeviation.
Proof.
  do 3 (split; [ reflexivity | ]).
  apply (proj1 risk_ratio_NaN_on_finite_arguments); reflexivity.
Defined.

(** X3: on finite arguments the Graham number is [NaN] exactly when
    [earningsPerShare] or [bondYield] is a zero; a growth rate of [-1],
    which makes the product vanish, gives a zero and not [NaN]. *)
Theorem calculateGrahamNumber_NaN_on_finite_arguments :
  forall eps g b,
    isFinite eps = true -> isFinite g = true -> isFinite b = true ->
    isNaN (calculateGrahamNumber eps g b) = isZero eps || isZero b.
Proof.
  intros eps g b Fe Fg Fb. unfold calculateGrahamNumber.
  rewrite !isZero_strict_eq.
  destruct eps as [se | se | | se me ee]; try discriminate Fe;
    [ reflexivity | ].
  destruct b as [sb | sb | | sb mb eb]; try discriminate Fb;
    [ reflexivity | ].
  cbn [isZero orb]. cbv zeta. apply div_by_finite_not_NaN.
  destruct literal_values as (_ & _ & _ & _ & _ & _ & _ & ->).
  apply mul_finite_r_not_NaN, mul_finite_l_not_NaN.
  apply add_finite_not_NaN; [ reflexivity | exact Fg ].
Qed.

Lemma calculateGrahamNumber_NaN_on_finite_arguments_witness :
  isFinite Example.earningsPerShare = true /\
  isFinite (int (-1)) = true /\
  isFinite Example.bondYield = true /\
  isNaN (calculateGrahamNumber Example.earningsPerShare (int (-1))
           Example.bondYield)
  = isZero Example.earningsPerShare || isZero Example.bondYield.
Proof.
  do 3 (split; [ reflexivity | ]).
  apply calculateGrahamNumber_NaN_on_finite_arguments; reflexivity.
Defined.

(** ** The sign of the Gordon value *)

(** X4: with finite arguments and [discountRate > growthRate] the intrinsic
    value is never negative for a dividend that is not negative, and never
    positive for a dividend that is not positive. *)
Theorem calculateGordonIntrinsicValueDDM_sign :
  forall cd g d,
    isFinite cd = true -> isFinite g = true -> isFinite d = true ->
    valid g = true -> valid d = true ->
    gt d g = true ->
    (le (int 0) cd = true ->
     le (int 0) (calculateGordonIntrinsicValueDDM cd g d) = true) /\
    (le cd (int 0) = true ->
     le (calculateGordonIntrinsicValueDDM cd g d) (int 0) = true).
Proof.
  intros cd g d Fc Fg Fd Vg Vd Hgt.
  apply gt_not_le in Hgt.
  unfold calculateGordonIntrinsicValueDDM. rewrite Hgt.
  pose proof (sub_nonzero d g Fd Fg Vd Vg Hgt) as Hnz.
  pose proof (sub_has_sign d g Fd Fg Vd Vg Hgt) as Hs.
  pose proof (div_finite_not_NaN cd (sub d g) Fc Hnz) as HN.
  split; intros Hc.
  - destruct (nonneg_cases cd Hc) as [Hz | Hp].
    + destruct cd as [s | | | ]; try discriminate Hz.
      now apply isZero_le, div_zero_l.
    + apply has_sign_nonneg.
      exact (div_has_sign false false cd (sub d g) Hp Hs HN).
  - destruct (nonpos_cases cd Hc) as [Hz | Hp].
    + destruct cd as [s | | | ]; try discriminate Hz.
      now apply isZero_le, div_zero_l.
    + apply has_sign_nonpos.
      exact (div_has_sign true false cd (sub d g) Hp Hs HN).
Qed.

Lemma calculateGordonIntrinsicValueDDM_sign_witness :
  isFinite Example.currentDividend = true /\
  isFinite Example.growthRate = true /\
  isFinite Example.discountRate = true /\
  valid Example.growthRate = true /\
  valid Example.discountRate = true /\
  gt Example.discountRate Example.growthRate = true /\
  le (int 0) Example.currentDividend = true /\
  le (int 0)
    (calculateGordonIntrinsicValueDDM Example.currentDividend
       Example.growthRate Example.discountRate) = true.
Proof.
  do 7 (split; [ reflexivity | ]).
  apply (calculateGordonIntrinsicValueDDM_sign Example.currentDividend
           Example.growthRate Example.discountRate); reflexivity.
Defined.

(** ** The sign of the risk-adjusted ratios *)

(** X5: with finite arguments, a return above the reference rate and a
    positive deviation (or beta) give a ratio that is not negative; rounding
    may take it down to zero. *)
Theorem risk_ratio_sign :
  (forall rf ar sd,
      isFinite rf = true -> isFinite ar = true -> isFinite sd = true ->
      valid rf = true -> valid ar = true ->
      gt ar rf = true -> gt sd (int 0) = true ->
      le (int 0) (calculateSharpeRatio rf ar sd) = true) /\
  (forall ar mr beta,
      isFinite ar = true -> isFinite mr = true -> isFinite beta = true ->
      valid ar = true -> valid mr = true ->
      gt ar mr = true -> gt beta (int 0) = true ->
      le (int 0) (calculateTreynorRatio ar mr beta) = true) /\
  (forall rf ar dd,
      isFinite rf = true -> isFinite ar = true -> isFinite dd = true ->
      valid rf = true -> valid ar = true ->
      gt ar rf = true -> gt dd (int 0) = true ->
      le (int 0) (calculateSortinoRatio rf ar dd) = true).
Proof.
  assert (H : forall y x z,
             isFinite y = true -> isFinite x = true -> isFinite z = true ->
             valid y = true -> valid x = true ->
             gt x y = true -> gt z (int 0) = true ->
             le (int 0) (if strict_eq z (int 0) then NaN
                         else div (sub x y) z) = true).
  { intros y x z Fy Fx Fz Vy Vx Hgt Hz.
    apply gt_not_le in Hgt.
    destruct z as [sz | sz | | sz mz ez]; try discriminate Fz;
      try discriminate Hz.
    destruct sz; try discriminate Hz.
    rewrite isZero_strict_eq. cbn [isZero].
    apply has_sign_nonneg.
    apply (div_has_sign false false).
    - now apply sub_has_sign.
    - reflexivity.
    - apply div_by_finite_not_NaN. now apply sub_finite_not_NaN. }
  repeat split; intros; now apply H.
Qed.

Lemma risk_ratio_sign_witness :
  isFinite Example.riskFreeRate = true /\
  isFinite Example.averageReturn = true /\
  isFinite Example.standardDeviation = true /\
  valid Example.riskFreeRate = true /\
  valid Example.averageReturn = true /\
  gt Example.averageReturn Example.riskFreeRate = true /\
  gt Example.standardDeviation (int 0) = true /\
  le (int 0)
    (calculateSharpeRatio Example.riskFreeRate Example.averageReturn
       Example.standardDeviation) = true.
Proof.
  do 7 (split; [ reflexivity | ]).
  apply (proj1 risk_ratio_sign); reflexivity.
Defined.

Section ExactQuotients.

Lemma div_eucl_pair (a b : Z) : Z.div_eucl a b = (a / b, a mod b).
Proof.
  unfold Z.div, Z.modulo. destruct (Z.div_eucl a b); reflexivity.
Qed.

Lemma new_location_0 (n : Z) : new_location n 0 = loc_Exact.
Proof. unfold new_location. destruct (Z.even n); reflexivity. Qed.

(** A finite number divided by itself is exactly one. *)
Lemma div_diag (s : bool) (m : positive) (e : Z) :
  div (S754_finite s m e) (S754_finite s m e) = int 1.
Proof.
  unfold div, SFdiv, SFdiv_core_binary.
  rewrite !Z.sub_diag.
  change (Z.min (fexp prec emax 0) 0) with (-53).
  change (0 - -53) with 53.
  cbv iota.
  rewrite div_eucl_pair, Z.shiftl_mul_pow2 by lia.
  rewrite (Z.mul_comm (Zpos m)), Z.div_mul, Z.mod_mul by lia.
  rewrite new_location_0, xorb_nilpotent.
  vm_compute. reflexivity.
Qed.

End ExactQuotients.

(** X6: a price equal to the book value, or an enterprise value equal to
    EBITDA, gives a ratio of exactly 1 for every finite value other than
    zero: the quotient carries no rounding error. *)
Theorem plain_ratio_of_equal_arguments :
  forall x,
    isFinite x = true -> isZero x = false ->
    calculatePriceToBook x x = int 1 /\
    calculateEnterpriseValueToEBITDA x x = int 1.
Proof.
  intros x Fx Zx.
  unfold calculatePriceToBook, calculateEnterpriseValueToEBITDA.
  rewrite isZero_strict_eq, Zx.
  destruct x as [s | s | | s m e]; try discriminate Fx; try discriminate Zx.
  split; apply div_diag.
Qed.

Lemma plain_ratio_of_equal_arguments_witness :
  isFinite Example.stockPrice = true /\
  isZero Example.stockPrice = false /\
  calculatePriceToBook Example.stockPrice Example.stockPrice = int 1 /\
  calculateEnterpriseValueToEBITDA Example.stockPrice Example.stockPrice
  = int 1.
Proof.
  do 2 (split; [ reflexivity | ]).
  apply (plain_ratio_of_equal_arguments Example.stockPrice); reflexivity.
Defined.

(** X7: the Altman Z-score has a third unguarded divisor: with
    [marketValueEquity] a zero of either sign the result is an infinity or
    [NaN], whatever the other arguments are. *)
Theorem calculateAltmanZScore_zero_equity :
  forall s wc re ta tl,
    isFinite (calculateAltmanZScore wc re ta (S754_zero s) tl) = false.
Proof.
  intros s wc re ta tl. unfold calculateAltmanZScore.
  set (numerator := add _ _).
  destruct (orb_prop _ _ (div_zero_l_cases s tl)) as [H | H].
  - destruct (div (S754_zero s) tl) as [s' | | | ]; try discriminate H.
    apply div_zero_not_finite.
  - apply isNaN_eq in H. rewrite H, div_NaN_r. reflexivity.
Qed.

Section Negation.

Lemma isZero_neg (x : number) : isZero (neg x) = isZero x.
Proof. destruct x; reflexivity. Qed.


Lemma div_neg_l (x y : number) : div (neg x) y = neg (div x y).
Proof.
  destruct x as [sx | sx | | sx mx ex], y as [sy | sy | | sy my ey];
    try reflexivity;
    try (destruct sx, sy; reflexivity).
  unfold neg at 1. unfold div, SFdiv, SFopp.
  destruct (SFdiv_core_binary prec emax (Zpos mx) ex (Zpos my) ey)
    as [[mz ez] lz].
  rewrite <- negb_xorb_l. apply binary_round_aux_neg.
Qed.

Lemma mul_neg_l (x y : number) : mul (neg x) y = neg (mul x y).
Proof.
  destruct x as [sx | sx | | sx mx ex], y as [sy | sy | | sy my ey];
    try reflexivity;
    try (destruct sx, sy; reflexivity).
  unfold neg at 1. unfold mul, SFmul, SFopp.
  rewrite <- negb_xorb_l. apply binary_round_aux_neg.
Qed.

End Negation.

(** ** Negative arguments *)


(** X9: nor is a negative numerator rejected: negating the enterprise
    value, the stock price, the earnings per share or the dividend negates
    the result. *)
Theorem negated_numerator_negates_result :
  (forall ev ebitda,
      calculateEnterpriseValueToEBITDA (neg ev) ebitda
      = neg (calculateEnterpriseValueToEBITDA ev ebitda)) /\
  (forall sp bv,
      calculatePriceToBook (neg sp) bv = neg (calculatePriceToBook sp bv)) /\
  (forall eps g b,
      calculateGrahamNumber (neg eps) g b
      = neg (calculateGrahamNumber eps g b)) /\
  (forall cd g d,
      calculateGordonIntrinsicValueDDM (neg cd) g d
      = neg (calculateGordonIntrinsicValueDDM cd g d)).
Proof.
  repeat split; intros.
  - unfold calculateEnterpriseValueToEBITDA.
    destruct (strict_eq ebitda (int 0)); [ reflexivity | apply div_neg_l ].
  - unfold calculatePriceToBook.
    destruct (strict_eq bv (int 0)); [ reflexivity | apply div_neg_l ].
  - unfold calculateGrahamNumber.
    rewrite !isZero_strict_eq, isZero_neg.
    destruct (isZero eps || isZero b); [ reflexivity | ].
    cbv zeta. now rewrite !mul_neg_l, div_neg_l.
  - unfold calculateGordonIntrinsicValueDDM.
    destruct (le d g); [ reflexivity | apply div_neg_l ].
Qed.

Section Identities.

Lemma strict_eq_refl (x : number) : isNaN x = false -> strict_eq x x = true.
Proof.
  destruct x as [s | s | | s m e]; intros H; try discriminate H;
    try (destruct s; reflexivity).
  unfold strict_eq, SFeqb, SFcompare.
  rewrite Z.compare_refl.
  change (Pos.compare_cont Eq m m) with (Pos.compare m m).
  rewrite Pos.compare_refl. destruct s; reflexivity.
Qed.

Lemma sub_diag (x : number) :
  isFinite x = true -> sub x x = S754_zero false.
Proof.
  destruct x as [s | s | | s m e]; intros H; try discriminate H.
  - destruct s; reflexivity.
  - unfold sub, SFsub. rewrite Z.sub_diag. reflexivity.
Qed.

Lemma mul_zero_r (x : number) (s : bool) :
  isFinite x = true -> isZero (mul x (S754_zero s)) = true.
Proof. destruct x; intros H; try discriminate H; reflexivity. Qed.

Lemma mul_zero_l (s : bool) (y : number) :
  isFinite y = true -> isZero (mul (S754_zero s) y) = true.
Proof. destruct y; intros H; try discriminate H; reflexivity. Qed.

Lemma mul_zero_infinite (s : bool) (y : number) :
  isInfinite y = true -> mul (S754_zero s) y = NaN.
Proof. destruct y; intros H; try discriminate H; reflexivity. Qed.

(** Adding a zero changes a finite number at most in the sign of zero. *)
Lemma add_zero_r (x z : number) :
  isFinite x = true -> isZero z = true ->
  strict_eq (add x z) x = true /\ (isZero x = false -> add x z = x).
Proof.
  destruct z as [sz | | | ]; intros Fx Hz; try discriminate Hz.
  destruct x as [sx | sx | | sx mx ex]; try discriminate Fx.
  - split; [ destruct sx, sz; reflexivity | intros H; discriminate H ].
  - split; [ | reflexivity ].
    change (add (S754_finite sx mx ex) (S754_zero sz))
      with (S754_finite sx mx ex).
    now apply strict_eq_refl.
Qed.

Lemma finite_or_infinite (x : number) :
  isNaN x = false -> isFinite x = negb (isInfinite x).
Proof. destruct x; intros H; try discriminate H; reflexivity. Qed.

End Identities.

(** ** CAPM at its reference points *)

(** X10: when the market returns the risk-free rate, the expected return
    is the risk-free rate for every finite beta: exactly, and up to the
    sign of zero when the rate is zero. *)
Theorem calculateExpectedReturnCAPM_no_market_premium :
  forall rf beta,
    isFinite rf = true -> isFinite beta = true ->
    strict_eq (calculateExpectedReturnCAPM rf rf beta) rf = true /\
    (isZero rf = false -> calculateExpectedReturnCAPM rf rf beta = rf).
Proof.
  intros rf beta Fr Fb. unfold calculateExpectedReturnCAPM.
  rewrite sub_diag by exact Fr.
  apply add_zero_r; [ exact Fr | now apply mul_zero_r ].
Qed.

Lemma calculateExpectedReturnCAPM_no_market_premium_witness :
  isFinite Example.riskFreeRate = true /\
  isFinite Example.beta = true /\
  isZero Example.riskFreeRate = false /\
  calculateExpectedReturnCAPM Example.riskFreeRate Example.riskFreeRate
    Example.beta = Example.riskFreeRate.
Proof.
  do 3 (split; [ reflexivity | ]).
  apply (calculateExpectedReturnCAPM_no_market_premium
           Example.riskFreeRate Example.beta); reflexivity.
Defined.

(** X11: with beta a zero and finite rates, the expected return is the
    risk-free rate as long as the premium [marketReturn - riskFreeRate]
    is finite; when the premium overflows to an infinity the result is
    [NaN], although every argument is finite and no guard exists. *)
Theorem calculateExpectedReturnCAPM_zero_beta :
  forall s rf mr,
    isFinite rf = true -> isFinite mr = true ->
    isNaN (calculateExpectedReturnCAPM rf mr (S754_zero s))
    = isInfinite (sub mr rf) /\
    (isFinite (sub mr rf) = true ->
     strict_eq (calculateExpectedReturnCAPM rf mr (S754_zero s)) rf = true).
Proof.
  intros s rf mr Fr Fm. unfold calculateExpectedReturnCAPM.
  pose proof (sub_finite_not_NaN mr rf Fm Fr) as HN.
  pose proof (finite_or_infinite _ HN) as Hfi.
  destruct (isInfinite (sub mr rf)) eqn:Hi.
  - rewrite (mul_zero_infinite s _ Hi), add_NaN_r.
    split; [ reflexivity | ].
    intros H. rewrite H in Hfi. discriminate Hfi.
  - simpl in Hfi.
    destruct (add_zero_r rf (mul (S754_zero s) (sub mr rf)) Fr
                (mul_zero_l s _ Hfi)) as [He _].
    split; [ | intros _; exact He ].
    destruct (add rf _); try reflexivity. discriminate He.
Qed.

Lemma calculateExpectedReturnCAPM_zero_beta_witness :
  isFinite (neg MAX_VALUE) = true /\
  isFinite MAX_VALUE = true /\
  isNaN (calculateExpectedReturnCAPM (neg MAX_VALUE)
           MAX_VALUE (int 0))
  = isInfinite (sub MAX_VALUE (neg MAX_VALUE)) /\
  calculateExpectedReturnCAPM (neg MAX_VALUE)
    MAX_VALUE (int 0) = NaN.
Proof.
  do 2 (split; [ reflexivity | ]).
  split.
  - apply (calculateExpectedReturnCAPM_zero_beta false
             (neg MAX_VALUE) MAX_VALUE);
      reflexivity.
  - vm_compute. reflexivity.
Defined.
